(** * The Leaseweb Terraform provider: configuration of the API client

    A shallow embedding of [internal/provider/provider.go].  The provider's
    [Configure] decodes the configuration the host sent, merges it with the
    process environment, validates the token, annotates the logging context
    and builds the API client that every data source and resource shares.
    [DataSources] and [Resources] publish the constructors of the provider.

    Go names are kept, with the package written in front of the name
    ([types_String] for [types.String], [os_Getenv] for [os.Getenv]). *)

From stdpp Require Import base option list strings gmap fin_maps.

Local Open Scope string_scope.
Local Open Scope list_scope.

(** ** Values of the plugin framework *)

(** [types.String]: a string attribute is null (not set), unknown (not yet
    computed by the host) or a known string. *)
Inductive types_String : Type :=
  | types_StringNull
  | types_StringUnknown
  | types_StringValue (value : string).

Definition IsNull (s : types_String) : bool :=
  match s with types_StringNull => true | _ => false end.

Definition IsUnknown (s : types_String) : bool :=
  match s with types_StringUnknown => true | _ => false end.

(** [ValueString] is the known value, and the empty string for a null or an
    unknown attribute. *)
Definition ValueString (s : types_String) : string :=
  match s with types_StringValue v => v | _ => "" end.

(** [path.Path], as the names of the attributes from the root. *)
Definition path_Path : Type := list string.

Definition path_Root (name : string) : path_Path := [name].

(** ** Diagnostics

    The package [diag] of the plugin framework is outside this repository;
    it is given here after its documentation: a diagnostic has a severity,
    a summary, a detail and, for an attribute diagnostic, a path;
    [HasError] tells whether a collection holds an error; [Append] adds the
    diagnostics that are not duplicates of one already collected. *)

Inductive diag_Severity : Type := diag_SeverityError | diag_SeverityWarning.

Record diag_Diagnostic : Type := {
  Severity : diag_Severity;
  Summary : string;
  Detail : string;
  Path : option path_Path
}.

Definition diag_Diagnostics : Type := list diag_Diagnostic.

#[global] Instance diag_Severity_eq_dec : EqDecision diag_Severity.
Proof. solve_decision. Defined.

#[global] Instance diag_Diagnostic_eq_dec : EqDecision diag_Diagnostic.
Proof. solve_decision. Defined.

Definition diag_NewAttributeErrorDiagnostic
    (p : path_Path) (summary detail : string) : diag_Diagnostic :=
  {| Severity := diag_SeverityError; Summary := summary; Detail := detail;
     Path := Some p |}.

Definition is_error (d : diag_Diagnostic) : bool :=
  match Severity d with diag_SeverityError => true | diag_SeverityWarning => false end.

(** [Diagnostics.HasError]: some diagnostic of the collection is an error. *)
Definition HasError (ds : diag_Diagnostics) : bool := existsb is_error ds.

(** [Diagnostics.Contains]: an equal diagnostic is in the collection. *)
Definition Contains (ds : diag_Diagnostics) (d : diag_Diagnostic) : bool :=
  existsb (fun d' => bool_decide (d' = d)) ds.

(** [Diagnostics.Append] adds the diagnostics that the collection does not
    contain yet, in order. *)
Definition Append (ds : diag_Diagnostics) (new : list diag_Diagnostic) : diag_Diagnostics :=
  fold_left (fun acc d => if Contains acc d then acc else acc ++ [d]) new ds.

(** ** The provider and the messages between the host and the provider *)

Record leasewebProvider : Type := {
  version : string
}.

Record leasewebProviderModel : Type := {
  Host : types_String;
  Token : types_String;
  Scheme : types_String
}.

(** [tfsdk.Config].  Decoding the configuration ([Config.Get]) is the work
    of the framework; a configuration is given here by what decoding it
    yields: the model it fills in and the diagnostics it reports. *)
Record tfsdk_Config : Type := {
  Values : leasewebProviderModel;
  Reported : diag_Diagnostics
}.

Definition Config_Get (c : tfsdk_Config) : leasewebProviderModel * diag_Diagnostics :=
  (Values c, Reported c).

Record provider_ConfigureRequest : Type := {
  Config : tfsdk_Config
}.

(** A reference to a client object of the process (a Go pointer). *)
Definition ref : Type := nat.

Record provider_ConfigureResponse : Type := {
  Diagnostics : diag_Diagnostics;
  DataSourceData : option ref;
  ResourceData : option ref
}.

(** [client.Optional]: a nil pointer is [None]. *)
Record client_Optional : Type := {
  OptionalHost : option string;
  OptionalScheme : option string
}.

(** ** Logging with tflog

    The package [tflog] of terraform-plugin-log is outside this repository;
    it is given here after its documentation.  The logger travels in the
    context: [SetField] sets a field that every later entry carries, and
    [MaskFieldValuesWithFieldKeys] masks, with three asterisks, the value
    of every field whose key is one of the given keys.  An entry carries
    the fields of the context and the fields given with the message.

    A context writes an entry only when it holds the logger of the
    provider: [context.Background] holds none, and [tflog.Info] then
    returns without writing.  The logger has a level, and writes the
    entries at that level and above.  The options of the logger may omit
    an entry, by the keys of its fields or by its message. *)

(** The levels of [hclog], from the most to the least verbose. *)
Inductive hclog_Level : Type :=
  | hclog_Trace
  | hclog_Debug
  | hclog_Info
  | hclog_Warn
  | hclog_Error
  | hclog_Off.

(** Whether a logger at level [l] writes the entries of [tflog.Info]. *)
Definition writes_info (l : hclog_Level) : bool :=
  match l with
  | hclog_Trace | hclog_Debug | hclog_Info => true
  | hclog_Warn | hclog_Error | hclog_Off => false
  end.

Inductive tflog_Value : Type :=
  | tflog_String (s : string)
  | tflog_Bool (b : bool).

(** A [context.Context], as far as the logging of [Configure] goes: the
    level of the logger of the provider, if the context holds one; the
    fields and the masked keys of its options; and the decision of its
    rules of omission (by field key, by message) on a message and its
    fields.  [Configure] installs a mask by field key only; the masks by
    value and by message that a context could carry are left out. *)
Record context_Context : Type := {
  ProviderRootLogger : option hclog_Level;
  Fields : gmap string tflog_Value;
  MaskedKeys : list string;
  ShouldOmit : string -> gmap string tflog_Value -> bool
}.

Record tflog_Entry : Type := {
  Level : string;
  Message : string;
  EntryFields : gmap string tflog_Value
}.

Definition tflog_SetField (ctx : context_Context) (key : string) (v : tflog_Value)
    : context_Context :=
  {| ProviderRootLogger := ProviderRootLogger ctx;
     Fields := <[key := v]> (Fields ctx);
     MaskedKeys := MaskedKeys ctx;
     ShouldOmit := ShouldOmit ctx |}.

Definition tflog_MaskFieldValuesWithFieldKeys (ctx : context_Context) (keys : list string)
    : context_Context :=
  {| ProviderRootLogger := ProviderRootLogger ctx;
     Fields := Fields ctx;
     MaskedKeys := MaskedKeys ctx ++ keys;
     ShouldOmit := ShouldOmit ctx |}.

Definition mask_field (fields : gmap string tflog_Value) (key : string)
    : gmap string tflog_Value :=
  alter (fun _ => tflog_String "***") key fields.

Definition ApplyMaskFieldValuesWithFieldKeys
    (keys : list string) (fields : gmap string tflog_Value) : gmap string tflog_Value :=
  fold_left mask_field keys fields.

(** The entry that [tflog.Info] writes, when it writes: the additional
    fields take precedence over the fields of the context. *)
Definition info_entry (ctx : context_Context) (msg : string)
    (additional : gmap string tflog_Value) : tflog_Entry :=
  {| Level := "info"; Message := msg;
     EntryFields :=
       ApplyMaskFieldValuesWithFieldKeys (MaskedKeys ctx) (additional ∪ Fields ctx) |}.





(** ** The process: what Configure reads and writes *)

(** The environment of the process, and the lookup behind [os.Getenv]. *)
Definition getenv (env : gmap string string) (name : string) : string :=
  default "" (env !! name).

(** The calls to the outside that [Configure] makes, in order. *)
Inductive Event : Type :=
  | EvGetenv (name : string)
  | EvNewClient (token : string) (optional : client_Optional) (version : string)
  | EvLog (entry : tflog_Entry).

Section Provider.

(** The API client lives in the package [client], outside this file: its
    type and its constructor are parameters. *)
Variable client_Client : Type.
Variable NewClient : string -> client_Optional -> string -> client_Client.

Record Process : Type := {
  Environ : gmap string string;
  Trace : list Event;
  Clients : list client_Client;
  Response : provider_ConfigureResponse
}.

(** A small state monad over the process. *)
Definition M (A : Type) : Type := Process -> A * Process.

#[local] Instance M_ret : MRet M := fun A a s => (a, s).
#[local] Instance M_bind : MBind M :=
  fun A B f m s => let '(a, s') := m s in f a s'.

Definition emit (e : Event) : M unit := fun s =>
  (tt, {| Environ := Environ s; Trace := Trace s ++ [e];
          Clients := Clients s; Response := Response s |}).

Definition modify_response
    (f : provider_ConfigureResponse -> provider_ConfigureResponse) : M unit := fun s =>
  (tt, {| Environ := Environ s; Trace := Trace s;
          Clients := Clients s; Response := f (Response s) |}).

Definition resp_Diagnostics_Append (ds : diag_Diagnostics) : M unit :=
  modify_response (fun r =>
    {| Diagnostics := Append (Diagnostics r) ds;
       DataSourceData := DataSourceData r; ResourceData := ResourceData r |}).

Definition resp_Diagnostics_AddAttributeError
    (p : path_Path) (summary detail : string) : M unit :=
  resp_Diagnostics_Append [diag_NewAttributeErrorDiagnostic p summary detail].

Definition resp_Diagnostics_HasError : M bool := fun s =>
  (HasError (Diagnostics (Response s)), s).

Definition set_DataSourceData (c : ref) : M unit :=
  modify_response (fun r =>
    {| Diagnostics := Diagnostics r;
       DataSourceData := Some c; ResourceData := ResourceData r |}).

Definition set_ResourceData (c : ref) : M unit :=
  modify_response (fun r =>
    {| Diagnostics := Diagnostics r;
       DataSourceData := DataSourceData r; ResourceData := Some c |}).

(** [os.Getenv]: the value of the variable, the empty string when it is
    not set. *)
Definition os_Getenv (name : string) : M string := fun s =>
  (getenv (Environ s) name,
   {| Environ := Environ s; Trace := Trace s ++ [EvGetenv name];
      Clients := Clients s; Response := Response s |}).

(** [client.NewClient] allocates a client and returns the pointer to it. *)
Definition client_NewClient (token : string) (optional : client_Optional) (v : string)
    : M ref := fun s =>
  (length (Clients s),
   {| Environ := Environ s;
      Trace := Trace s ++ [EvNewClient token optional v];
      Clients := Clients s ++ [NewClient token optional v];
      Response := Response s |}).

(** [tflog.Info] returns without writing when the context holds no logger
    of the provider or when the options omit the entry; the logger drops
    the entry when its level is above info. *)
Definition tflog_Info (ctx : context_Context) (msg : string)
    (additional : gmap string tflog_Value) : M unit :=
  match ProviderRootLogger ctx with
  | None => mret tt
  | Some level =>
      if ShouldOmit ctx msg (additional ∪ Fields ctx) then mret tt
      else if writes_info level then emit (EvLog (info_entry ctx msg additional))
      else mret tt
  end.

(** ** Configure *)

Definition unknown_token_summary : string := "Unknown Leaseweb API token".
Definition unknown_token_detail : string :=
  "The provider cannot create the Leaseweb API client as there is an unknown configuration value for the Leaseweb API token. "
  +:+ "Either target apply the source of the value first, set the value statically in the configuration, or use the LEASEWEB_TOKEN environment variable.".

Definition missing_token_summary : string := "Missing Leaseweb API token".
Definition missing_token_detail : string :=
  "The provider cannot create the Leaseweb API client as there is a missing or empty value for the Leaseweb API token. "
  +:+ "Set the token value in the configuration or use the LEASEWEB_TOKEN environment variable. "
  +:+ "If either is already set, ensure the value is not empty.".

Definition Configure (p : leasewebProvider) (ctx : context_Context)
    (req : provider_ConfigureRequest) : M unit :=
  let '(config, diags) := Config_Get (Config req) in
  resp_Diagnostics_Append diags ;;
  failed ← resp_Diagnostics_HasError ;
  if failed : bool then mret tt else

  (if IsUnknown (Token config)
   then resp_Diagnostics_AddAttributeError (path_Root "token")
          unknown_token_summary unknown_token_detail
   else mret tt) ;;

  failed ← resp_Diagnostics_HasError ;
  if failed : bool then mret tt else

  host ← os_Getenv "LEASEWEB_HOST" ;
  scheme ← os_Getenv "LEASEWEB_SCHEME" ;
  token ← os_Getenv "LEASEWEB_TOKEN" ;

  let host := if negb (IsNull (Host config)) then ValueString (Host config) else host in
  let scheme := if negb (IsNull (Scheme config)) then ValueString (Scheme config) else scheme in
  let token := if negb (IsNull (Token config)) then ValueString (Token config) else token in

  (if String.eqb token ""
   then resp_Diagnostics_AddAttributeError (path_Root "token")
          missing_token_summary missing_token_detail
   else mret tt) ;;

  failed ← resp_Diagnostics_HasError ;
  if failed : bool then mret tt else

  let ctx := tflog_SetField ctx "leaseweb_host" (tflog_String host) in
  let ctx := tflog_SetField ctx "leaseweb_scheme" (tflog_String scheme) in
  let ctx := tflog_SetField ctx "leaseweb_token" (tflog_String token) in
  let ctx := tflog_MaskFieldValuesWithFieldKeys ctx ["leaseweb_token"] in

  let optional := {| OptionalHost := None; OptionalScheme := None |} in
  let optional :=
    if negb (String.eqb host "")
    then {| OptionalHost := Some host; OptionalScheme := OptionalScheme optional |}
    else optional in
  let optional :=
    if negb (String.eqb scheme "")
    then {| OptionalHost := OptionalHost optional; OptionalScheme := Some scheme |}
    else optional in

  coreClient ← client_NewClient token optional (version p) ;

  set_DataSourceData coreClient ;;
  set_ResourceData coreClient ;;

  tflog_Info ctx "Configured Leaseweb client" {[ "success" := tflog_Bool true ]}.

(** ** The registry of data sources and resources

    The constructors live in the packages [publiccloud], [dedicatedserver],
    [dns] and [ipmgmt]; a constructor is given here by its name. *)

Inductive datasource_Constructor : Type :=
  | publiccloud_NewInstancesDataSource
  | publiccloud_NewCredentialDataSource
  | dedicatedserver_NewServerDataSource
  | dedicatedserver_NewServersDataSource
  | dedicatedserver_NewControlPanelsDataSource
  | dedicatedserver_NewOperatingSystemsDataSource
  | dedicatedserver_NewCredentialDataSource
  | publiccloud_NewImagesDataSource
  | publiccloud_NewLoadBalancersDataSource
  | publiccloud_NewLoadBalancerListenersDataSource
  | publiccloud_NewTargetGroupsDataSource
  | publiccloud_NewISOsDataSource
  | dns_NewResourceRecordSetsDataSource
  | ipmgmt_NewIPsDataSource
  | ipmgmt_NewNullRouteHistoryDataSource.

Inductive resource_Constructor : Type :=
  | publiccloud_NewInstanceResource
  | publiccloud_NewCredentialResource
  | dedicatedserver_NewServerResource
  | dedicatedserver_NewCredentialResource
  | dedicatedserver_NewNotificationSettingDatatrafficResource
  | dedicatedserver_NewNotificationSettingBandwidthResource
  | dedicatedserver_NewInstallationResource
  | publiccloud_NewImageResource
  | publiccloud_NewLoadBalancerResource
  | publiccloud_NewLoadBalancerListenerResource
  | publiccloud_NewTargetGroupResource
  | publiccloud_NewIPResource
  | publiccloud_NewInstanceIsoResource
  | dns_NewResourceRecordSetsResource
  | ipmgmt_NewIPResource
  | ipmgmt_NewNullRouteResource.

Definition DataSources (p : leasewebProvider) (_ : context_Context)
    : M (list datasource_Constructor) :=
  mret [
    publiccloud_NewInstancesDataSource;
    publiccloud_NewCredentialDataSource;
    dedicatedserver_NewServerDataSource;
    dedicatedserver_NewServersDataSource;
    dedicatedserver_NewControlPanelsDataSource;
    dedicatedserver_NewOperatingSystemsDataSource;
    dedicatedserver_NewCredentialDataSource;
    publiccloud_NewImagesDataSource;
    publiccloud_NewLoadBalancersDataSource;
    publiccloud_NewLoadBalancerListenersDataSource;
    publiccloud_NewTargetGroupsDataSource;
    publiccloud_NewISOsDataSource;
    dns_NewResourceRecordSetsDataSource;
    ipmgmt_NewIPsDataSource;
    ipmgmt_NewNullRouteHistoryDataSource
  ].

Definition Resources (p : leasewebProvider) (_ : context_Context)
    : M (list resource_Constructor) :=
  mret [
    publiccloud_NewInstanceResource;
    publiccloud_NewCredentialResource;
    dedicatedserver_NewServerResource;
    dedicatedserver_NewCredentialResource;
    dedicatedserver_NewNotificationSettingDatatrafficResource;
    dedicatedserver_NewNotificationSettingBandwidthResource;
    dedicatedserver_NewInstallationResource;
    publiccloud_NewImageResource;
    publiccloud_NewLoadBalancerResource;
    publiccloud_NewLoadBalancerListenerResource;
    publiccloud_NewTargetGroupResource;
    publiccloud_NewIPResource;
    publiccloud_NewInstanceIsoResource;
    dns_NewResourceRecordSetsResource;
    ipmgmt_NewIPResource;
    ipmgmt_NewNullRouteResource
  ].

End Provider.

Arguments Build_Process {client_Client} _ _ _ _.
Arguments Environ {client_Client} _.
Arguments Trace {client_Client} _.
Arguments Clients {client_Client} _.
Arguments Response {client_Client} _.
Arguments Configure {client_Client} NewClient p ctx req _.
Arguments DataSources {client_Client} p _ _.
Arguments Resources {client_Client} p _ _.

(** ** New, Metadata and Schema *)

(** [New] returns the factory of the provider: every provider it makes
    carries the version it was given. *)
Definition New (version : string) : unit -> leasewebProvider :=
  fun _ => {| version := version |}.

Record provider_MetadataResponse : Type := {
  TypeName : string;
  Version : string
}.

Definition Metadata (p : leasewebProvider) (resp : provider_MetadataResponse)
    : provider_MetadataResponse :=
  {| TypeName := "leaseweb"; Version := version p |}.

(** The double quote, for the descriptions that hold one. *)
Definition quote : string := String (Ascii.ascii_of_nat 34) EmptyString.

(** [schema.StringAttribute], with the fields that [Schema] sets and
    [Required], which it leaves at its zero value. *)
Record schema_StringAttribute : Type := {
  Required : bool;
  Optional : bool;
  Description : string;
  Sensitive : bool
}.

Record schema_Schema : Type := {
  Attributes : gmap string schema_StringAttribute
}.

Record provider_SchemaResponse : Type := {
  ResponseSchema : schema_Schema;
  SchemaDiagnostics : diag_Diagnostics
}.

Definition Schema (p : leasewebProvider) (resp : provider_SchemaResponse)
    : provider_SchemaResponse :=
  {| ResponseSchema :=
       {| Attributes :=
            <[ "host" :=
                 {| Required := false; Optional := true;
                    Description := "Host for Leaseweb API, defaults to " +:+ quote
                      +:+ "api.leaseweb.com" +:+ quote
                      +:+ ". May also be provided via LEASEWEB_HOST environment variable if present.";
                    Sensitive := false |} ]>
            (<[ "scheme" :=
                 {| Required := false; Optional := true;
                    Description := "Scheme for Leaseweb API, defaults to " +:+ quote
                      +:+ "https" +:+ quote
                      +:+ ". May also be provided via LEASEWEB_SCHEME environment variable if present.";
                    Sensitive := false |} ]>
            (<[ "token" :=
                 {| Required := false; Optional := true;
                    Description := "The API token to use. By default it takes the value from the LEASEWEB_TOKEN environment variable if present.";
                    Sensitive := true |} ]> ∅)) |};
     SchemaDiagnostics := SchemaDiagnostics resp |}.

(** The [tfsdk] tags of the fields of [leasewebProviderModel], in the order
    of the fields. *)
Definition leasewebProviderModel_tfsdk : list string := ["host"; "token"; "scheme"].

(** ** The vocabulary of the statements *)

(** The value that lines 104 to 118 of [Configure] leave in [host], [scheme]
    and [token]: the attribute of the configuration unless it is null, the
    environment variable otherwise. *)
Definition merged (attribute : types_String) (env_value : string) : string :=
  if negb (IsNull attribute) then ValueString attribute else env_value.

(** The pointer that lines 139 to 145 store in [client.Optional]. *)
Definition override (v : string) : option string :=
  if negb (String.eqb v "") then Some v else None.

(** The logging context after lines 134 to 137. *)
Definition annotated (ctx : context_Context) (host scheme token : string) : context_Context :=
  tflog_MaskFieldValuesWithFieldKeys
    (tflog_SetField
       (tflog_SetField
          (tflog_SetField ctx "leaseweb_host" (tflog_String host))
          "leaseweb_scheme" (tflog_String scheme))
       "leaseweb_token" (tflog_String token))
    ["leaseweb_token"].

(** The diagnostics of the response after line 86: those that decoding
    reported are appended. *)
Definition decoded (r : provider_ConfigureResponse) (req : provider_ConfigureRequest)
    : diag_Diagnostics :=
  Append (Diagnostics r) (Reported (Config req)).

Definition with_diagnostics (r : provider_ConfigureResponse) (ds : diag_Diagnostics)
    : provider_ConfigureResponse :=
  {| Diagnostics := ds; DataSourceData := DataSourceData r; ResourceData := ResourceData r |}.

(** The attribute error that a token check of [Configure] records. *)
Definition token_error (summary detail : string) : diag_Diagnostic :=
  diag_NewAttributeErrorDiagnostic (path_Root "token") summary detail.

(** The calls to [client.NewClient] and the log entries of a trace. *)
Definition client_calls (tr : list Event) : list (string * client_Optional * string) :=
  omap (fun e => match e with EvNewClient t o v => Some (t, o, v) | _ => None end) tr.

Definition env_reads (tr : list Event) : list string :=
  omap (fun e => match e with EvGetenv n => Some n | _ => None end) tr.

Definition log_entries (tr : list Event) : list tflog_Entry :=
  omap (fun e => match e with EvLog entry => Some entry | _ => None end) tr.

(** The override as the specification words it: the value of the
    configuration when there is one, else the environment variable when it
    is set and not empty, else none. *)
Definition stated_override (attribute : types_String) (env_value : option string)
    : option string :=
  match attribute with
  | types_StringValue v => Some v
  | _ => match env_value with
         | Some e => if String.eqb e "" then None else Some e
         | None => None
         end
  end.

(** The process with another environment. *)
Definition with_environ {client_Client : Type} (s : Process client_Client)
    (env : gmap string string) : Process client_Client :=
  {| Environ := env; Trace := Trace s; Clients := Clients s; Response := Response s |}.

(** The entry that line 152 logs. *)
Definition configured_entry (ctx : context_Context) (host scheme token : string) : tflog_Entry :=
  info_entry (annotated ctx host scheme token) "Configured Leaseweb client"
    {[ "success" := tflog_Bool true ]}.

(** Whether the context writes that entry: it holds a logger of the
    provider, at a level that writes info entries, and its options do not
    omit the entry. *)
Definition logs_configured (ctx : context_Context) (host scheme token : string) : bool :=
  match ProviderRootLogger ctx with
  | None => false
  | Some level =>
      negb (ShouldOmit ctx "Configured Leaseweb client"
              ({[ "success" := tflog_Bool true ]}
               ∪ Fields (annotated ctx host scheme token)))
      && writes_info level
  end.

(** What line 152 adds to the log: the entry, or nothing. *)
Definition configured_log (ctx : context_Context) (host scheme token : string)
    : list tflog_Entry :=
  if logs_configured ctx host scheme token
  then [configured_entry ctx host scheme token]
  else [].

(** ** Concrete inputs *)

(** The response that the framework hands to [Configure]. *)
Definition fresh_response : provider_ConfigureResponse :=
  {| Diagnostics := []; DataSourceData := None; ResourceData := None |}.

(** [context.Background]: no logger, no fields, no masks, nothing omitted. *)
Definition context_Background : context_Context :=
  {| ProviderRootLogger := None; Fields := ∅; MaskedKeys := [];
     ShouldOmit := fun _ _ => false |}.


(** A client that remembers how it was built. *)
Record recording_Client : Type := {
  ClientToken : string;
  ClientOptional : client_Optional;
  ClientVersion : string
}.

Definition start (env : gmap string string) : Process recording_Client :=
  {| Environ := env; Trace := []; Clients := []; Response := fresh_response |}.

Definition request (host token scheme : types_String) (reported : diag_Diagnostics)
    : provider_ConfigureRequest :=
  {| Config := {| Values := {| Host := host; Token := token; Scheme := scheme |};
                  Reported := reported |} |}.

Definition dev : leasewebProvider := {| version := "dev" |}.

Definition env_token_only : gmap string string :=
  {[ "LEASEWEB_TOKEN" := "abc123" ]}.

(** An environment with a variable that is none of the provider's. *)
Definition env_with_path : gmap string string :=
  <[ "PATH" := "/usr/bin" ]> env_token_only.

(** An error that decoding reports, on the host. *)
Definition decoding_error : diag_Diagnostic :=
  {| Severity := diag_SeverityError;
     Summary := "Value Conversion Error";
     Detail := "An unexpected error was encountered trying to build a value.";
     Path := Some (path_Root "host") |}.

Definition env_all : gmap string string :=
  <[ "LEASEWEB_HOST" := "other.example.com" ]>
    (<[ "LEASEWEB_SCHEME" := "http" ]> env_token_only).

Definition run (env : gmap string string) (req : provider_ConfigureRequest)
    : Process recording_Client :=
  (Configure Build_recording_Client dev context_Background req (start env)).2.




(** * Properties *)

(** ** Diagnostics *)

Lemma HasError_app (ds ds' : diag_Diagnostics) :
  HasError (ds ++ ds') = HasError ds || HasError ds'.
Proof. unfold HasError. apply existsb_app. Qed.

Lemma Contains_true (ds : diag_Diagnostics) (d : diag_Diagnostic) :
  Contains ds d = true -> In d ds.
Proof.
  unfold Contains. intros H. apply existsb_exists in H as (d' & Hin & Heq).
  apply bool_decide_eq_true in Heq. now subst.
Qed.

Lemma HasError_In (ds : diag_Diagnostics) (d : diag_Diagnostic) :
  In d ds -> is_error d = true -> HasError ds = true.
Proof. intros Hin He. unfold HasError. apply existsb_exists. eauto. Qed.

(** An error is never taken for a duplicate in a collection without error. *)
Lemma Contains_error (ds : diag_Diagnostics) (d : diag_Diagnostic) :
  HasError ds = false -> is_error d = true -> Contains ds d = false.
Proof.
  intros Hno He. destruct (Contains ds d) eqn:Hc; [|reflexivity].
  apply Contains_true in Hc. rewrite (HasError_In ds d Hc He) in Hno. discriminate.
Qed.

Lemma Append_error (ds : diag_Diagnostics) (d : diag_Diagnostic) :
  HasError ds = false -> is_error d = true -> Append ds [d] = ds ++ [d].
Proof. intros Hno He. unfold Append. cbn. now rewrite Contains_error. Qed.

Lemma HasError_Append (new ds : diag_Diagnostics) :
  HasError (Append ds new) = HasError ds || HasError new.
Proof.
  revert ds. induction new as [|d new IH]; intros ds; cbn.
  - now rewrite orb_false_r.
  - unfold Append in *. cbn. destruct (Contains ds d) eqn:Hc; rewrite IH.
    + destruct (is_error d) eqn:He; [|reflexivity].
      apply Contains_true in Hc. rewrite (HasError_In ds d Hc He). reflexivity.
    + rewrite HasError_app. cbn. rewrite orb_false_r. now rewrite orb_assoc.
Qed.

Lemma filter_no_error (ds : diag_Diagnostics) :
  HasError ds = false -> List.filter is_error ds = [].
Proof.
  induction ds as [|d ds IH]; cbn; [reflexivity|].
  intros H. apply orb_false_iff in H as [Hd Hds]. rewrite Hd. auto.
Qed.

Lemma filter_one_error (ds : diag_Diagnostics) (d : diag_Diagnostic) :
  HasError ds = false -> is_error d = true -> List.filter is_error (ds ++ [d]) = [d].
Proof.
  intros Hno He. rewrite List.filter_app, (filter_no_error ds Hno). cbn. now rewrite He.
Qed.

(** ** Masking *)





(** ** The four ways through Configure *)

Ltac project :=
  cbv beta iota zeta delta
    [Environ Trace Clients Response Diagnostics DataSourceData ResourceData
     Config Values Reported OptionalHost OptionalScheme with_diagnostics fst snd].

Ltac run_Configure :=
  unfold Configure, Config_Get, mbind, M_bind, mret, M_ret,
    resp_Diagnostics_AddAttributeError, resp_Diagnostics_Append,
    resp_Diagnostics_HasError, os_Getenv, client_NewClient,
    set_DataSourceData, set_ResourceData, tflog_Info, modify_response, emit;
  project.

Section Paths.

Context {client_Client : Type}.
Variable NewClient : string -> client_Optional -> string -> client_Client.

Implicit Types (p : leasewebProvider) (ctx : context_Context).
Implicit Types (req : provider_ConfigureRequest) (s : Process client_Client).

Lemma merged_nonempty_known (attribute : types_String) (env_value : string) :
  merged attribute env_value <> "" -> IsUnknown attribute = false.
Proof. destruct attribute; cbn; congruence. Qed.

(** Decoding recorded an error: nothing but the diagnostics changes. *)
Lemma Configure_decode_failed p ctx req s :
  HasError (decoded (Response s) req) = true ->
  Configure NewClient p ctx req s =
    (tt, {| Environ := Environ s; Trace := Trace s; Clients := Clients s;
            Response := with_diagnostics (Response s) (decoded (Response s) req) |}).
Proof.
  destruct req as [[config diags]], s as [env tr cl [ds dsd rd]]. unfold decoded. project.
  intros H. run_Configure. now rewrite H.
Qed.

(** The token is unknown: one more diagnostic, and nothing else. *)
Lemma Configure_unknown_token p ctx req s :
  HasError (decoded (Response s) req) = false ->
  IsUnknown (Token (Values (Config req))) = true ->
  Configure NewClient p ctx req s =
    (tt, {| Environ := Environ s; Trace := Trace s; Clients := Clients s;
            Response := with_diagnostics (Response s)
              (decoded (Response s) req
                 ++ [token_error unknown_token_summary unknown_token_detail]) |}).
Proof.
  destruct req as [[config diags]], s as [env tr cl [ds dsd rd]]. unfold decoded. project.
  intros H Hu. run_Configure. rewrite H, Hu. project.
  rewrite Append_error by (assumption || reflexivity). rewrite HasError_app, H. reflexivity.
Qed.

(** No token in the configuration nor in the environment. *)
Lemma Configure_missing_token p ctx req s :
  HasError (decoded (Response s) req) = false ->
  IsUnknown (Token (Values (Config req))) = false ->
  merged (Token (Values (Config req))) (getenv (Environ s) "LEASEWEB_TOKEN") = "" ->
  Configure NewClient p ctx req s =
    (tt, {| Environ := Environ s;
            Trace := Trace s ++ [EvGetenv "LEASEWEB_HOST"; EvGetenv "LEASEWEB_SCHEME";
                                 EvGetenv "LEASEWEB_TOKEN"];
            Clients := Clients s;
            Response := with_diagnostics (Response s)
              (decoded (Response s) req
                 ++ [token_error missing_token_summary missing_token_detail]) |}).
Proof.
  destruct req as [[config diags]], s as [env tr cl [ds dsd rd]]. unfold decoded, merged. project.
  intros H Hu Hm. run_Configure. rewrite H, Hu. project.
  rewrite H, Hm, String.eqb_refl. project.
  rewrite Append_error by (assumption || reflexivity). rewrite HasError_app, H. cbn.
  now rewrite <- !app_assoc.
Qed.

(** The token is there: the client is built and shared. *)
Lemma Configure_configured p ctx req s :
  HasError (decoded (Response s) req) = false ->
  merged (Token (Values (Config req))) (getenv (Environ s) "LEASEWEB_TOKEN") <> "" ->
  let host := merged (Host (Values (Config req))) (getenv (Environ s) "LEASEWEB_HOST") in
  let scheme := merged (Scheme (Values (Config req))) (getenv (Environ s) "LEASEWEB_SCHEME") in
  let token := merged (Token (Values (Config req))) (getenv (Environ s) "LEASEWEB_TOKEN") in
  let optional := {| OptionalHost := override host; OptionalScheme := override scheme |} in
  Configure NewClient p ctx req s =
    (tt, {| Environ := Environ s;
            Trace := Trace s ++ [EvGetenv "LEASEWEB_HOST"; EvGetenv "LEASEWEB_SCHEME";
                                 EvGetenv "LEASEWEB_TOKEN";
                                 EvNewClient token optional (version p)]
                     ++ (EvLog <$> configured_log ctx host scheme token);
            Clients := Clients s ++ [NewClient token optional (version p)];
            Response := {| Diagnostics := decoded (Response s) req;
                           DataSourceData := Some (length (Clients s));
                           ResourceData := Some (length (Clients s)) |} |}).
Proof.
  intros H Hm. pose proof (merged_nonempty_known _ _ Hm) as Hu. revert H Hm Hu.
  destruct req as [[config diags]], s as [env tr cl [ds dsd rd]].
  unfold decoded, merged, override, configured_log, logs_configured, configured_entry.
  project.
  intros H Hm Hu. apply String.eqb_neq in Hm.
  run_Configure. rewrite H, Hu. project.
  rewrite H, Hm. project. rewrite H.
  cbn [annotated tflog_MaskFieldValuesWithFieldKeys tflog_SetField
       ProviderRootLogger ShouldOmit Fields].
  destruct (String.eqb (if negb (IsNull (Host config)) then _ else _) ""),
           (String.eqb (if negb (IsNull (Scheme config)) then _ else _) "");
    cbn [negb]; project;
    (destruct (ProviderRootLogger ctx) as [level|];
     [ destruct (ShouldOmit ctx _ _); cbn [negb andb];
       [| destruct (writes_info level) ]
     | ]);
    project; cbn [fmap list_fmap]; rewrite <- ?app_assoc, ?app_nil_r; reflexivity.
Qed.

End Paths.

(** ** Configure, claim by claim *)

Lemma client_calls_app (tr tr' : list Event) :
  client_calls (tr ++ tr') = client_calls tr ++ client_calls tr'.
Proof. apply omap_app. Qed.

Lemma log_entries_app (tr tr' : list Event) :
  log_entries (tr ++ tr') = log_entries tr ++ log_entries tr'.
Proof. apply omap_app. Qed.

Lemma env_reads_app (tr tr' : list Event) :
  env_reads (tr ++ tr') = env_reads tr ++ env_reads tr'.
Proof. apply omap_app. Qed.

Lemma client_calls_logged (entries : list tflog_Entry) :
  client_calls (EvLog <$> entries) = [].
Proof. induction entries; cbn; auto. Qed.

Lemma env_reads_logged (entries : list tflog_Entry) :
  env_reads (EvLog <$> entries) = [].
Proof. induction entries; cbn; auto. Qed.

Lemma log_entries_logged (entries : list tflog_Entry) :
  log_entries (EvLog <$> entries) = entries.
Proof. induction entries as [|e entries IH]; cbn; [reflexivity|]. now f_equal. Qed.

(** The calls, reads and entries of a trace that was extended. *)
Ltac read_trace :=
  rewrite ?client_calls_app, ?env_reads_app, ?log_entries_app,
    ?client_calls_logged, ?env_reads_logged, ?log_entries_logged;
  cbn [client_calls env_reads log_entries omap list_omap app];
  rewrite ?app_nil_r.

Lemma HasError_token_error (ds : diag_Diagnostics) (summary detail : string) :
  HasError (ds ++ [token_error summary detail]) = true.
Proof. rewrite HasError_app. cbn. apply orb_true_r. Qed.

Section Claims.

Context {client_Client : Type}.
Variable NewClient : string -> client_Optional -> string -> client_Client.

Implicit Types (p : leasewebProvider) (ctx : context_Context).
Implicit Types (req : provider_ConfigureRequest) (s : Process client_Client).

(** C1, as amended. When the token of the configuration is unknown,
    Configure makes no call to the outside (no environment variable is
    read, so host and scheme are not resolved, no client is built, nothing
    is logged) and it leaves the shared client of the data sources and of
    the resources as they were. When in addition no error was recorded
    before Configure looks at the token (none in the response, none by
    decoding), it records one more diagnostic, the only error of the
    response, an error on the path [token]. *)
Theorem unknown_token_stops_resolution p ctx req s :
  Token (Values (Config req)) = types_StringUnknown ->
  let s' := (Configure NewClient p ctx req s).2 in
  let d := token_error unknown_token_summary unknown_token_detail in
  Trace s' = Trace s
  /\ env_reads (Trace s') = env_reads (Trace s)
  /\ Environ s' = Environ s
  /\ Clients s' = Clients s
  /\ DataSourceData (Response s') = DataSourceData (Response s)
  /\ ResourceData (Response s') = ResourceData (Response s)
  /\ (HasError (decoded (Response s) req) = false ->
        Diagnostics (Response s') = decoded (Response s) req ++ [d]
        /\ List.filter is_error (Diagnostics (Response s')) = [d]
        /\ Severity d = diag_SeverityError
        /\ Path d = Some (path_Root "token")).
Proof.
  intros Htoken s' d. subst s'.
  destruct (HasError (decoded (Response s) req)) eqn:Hgate.
  { rewrite Configure_decode_failed by assumption. cbn. repeat split; discriminate. }
  rewrite Configure_unknown_token by (rewrite ?Htoken; auto).
  cbn [snd Response Trace Environ Clients with_diagnostics
       Diagnostics DataSourceData ResourceData].
  repeat split. now apply filter_one_error.
Qed.

(** C3, as amended. When the token of the configuration is not unknown and
    the merged token (the value of the configuration, else the variable
    LEASEWEB_TOKEN) is the empty string, Configure builds no client and
    leaves the shared client of the data sources and of the resources as
    they were. When in addition no error was recorded before Configure
    merges the token (none in the response, none by decoding), it records
    one more diagnostic, the only error of the response, an error on the
    path [token]. *)
Theorem missing_token_is_reported p ctx req s :
  Token (Values (Config req)) <> types_StringUnknown ->
  merged (Token (Values (Config req))) (getenv (Environ s) "LEASEWEB_TOKEN") = "" ->
  let s' := (Configure NewClient p ctx req s).2 in
  let d := token_error missing_token_summary missing_token_detail in
  client_calls (Trace s') = client_calls (Trace s)
  /\ Clients s' = Clients s
  /\ DataSourceData (Response s') = DataSourceData (Response s)
  /\ ResourceData (Response s') = ResourceData (Response s)
  /\ (HasError (decoded (Response s) req) = false ->
        Diagnostics (Response s') = decoded (Response s) req ++ [d]
        /\ List.filter is_error (Diagnostics (Response s')) = [d]
        /\ Severity d = diag_SeverityError
        /\ Path d = Some (path_Root "token")).
Proof.
  intros Hknown Hempty s' d. subst s'.
  destruct (HasError (decoded (Response s) req)) eqn:Hgate.
  { rewrite Configure_decode_failed by assumption. cbn. repeat split; discriminate. }
  rewrite Configure_missing_token; [| assumption | | assumption].
  - cbn [snd Response Trace Environ Clients with_diagnostics
         Diagnostics DataSourceData ResourceData].
    repeat split.
    + rewrite client_calls_app. cbn. apply app_nil_r.
    + now apply filter_one_error.
  - destruct (Token (Values (Config req))); cbn; congruence.
Qed.

(** C5. Whenever the response of Configure holds an error, recorded by
    decoding the configuration or by one of the two checks of the token (or
    present in the response before), Configure has built no client, and the
    shared client of the data sources and that of the resources are not
    set: they are what they were. *)
Theorem error_produces_no_client p ctx req s :
  let s' := (Configure NewClient p ctx req s).2 in
  HasError (Diagnostics (Response s')) = true ->
  DataSourceData (Response s') = DataSourceData (Response s)
  /\ ResourceData (Response s') = ResourceData (Response s)
  /\ Clients s' = Clients s
  /\ client_calls (Trace s') = client_calls (Trace s).
Proof.
  intros s'. subst s'.
  destruct (HasError (decoded (Response s) req)) eqn:Hgate.
  { rewrite Configure_decode_failed by assumption. cbn. auto. }
  destruct (IsUnknown (Token (Values (Config req)))) eqn:Hu.
  { rewrite Configure_unknown_token by assumption. cbn. auto. }
  destruct (decide (merged (Token (Values (Config req)))
                      (getenv (Environ s) "LEASEWEB_TOKEN") = "")) as [Hm|Hm].
  { rewrite Configure_missing_token by assumption. cbn -[HasError].
    intros _. repeat split. rewrite client_calls_app. cbn. apply app_nil_r. }
  rewrite Configure_configured by assumption. cbn [snd Response Diagnostics].
  congruence.
Qed.

(** C8. When Configure ends without an error in the response, it has built
    exactly one client, from the merged token and the overrides, and the
    shared client of the data sources and that of the resources are both
    the reference to that one client. *)
Theorem success_shares_one_client p ctx req s :
  let s' := (Configure NewClient p ctx req s).2 in
  let token := merged (Token (Values (Config req))) (getenv (Environ s) "LEASEWEB_TOKEN") in
  let optional :=
    {| OptionalHost :=
         override (merged (Host (Values (Config req))) (getenv (Environ s) "LEASEWEB_HOST"));
       OptionalScheme :=
         override (merged (Scheme (Values (Config req))) (getenv (Environ s) "LEASEWEB_SCHEME"))
    |} in
  HasError (Diagnostics (Response s')) = false ->
  client_calls (Trace s') = client_calls (Trace s) ++ [(token, optional, version p)]
  /\ Clients s' = Clients s ++ [NewClient token optional (version p)]
  /\ DataSourceData (Response s') = Some (length (Clients s))
  /\ ResourceData (Response s') = Some (length (Clients s))
  /\ Clients s' !! length (Clients s) = Some (NewClient token optional (version p)).
Proof.
  intros s' token optional. subst s'.
  destruct (HasError (decoded (Response s) req)) eqn:Hgate.
  { rewrite Configure_decode_failed by assumption. cbn -[HasError decoded]. congruence. }
  destruct (IsUnknown (Token (Values (Config req)))) eqn:Hu.
  { rewrite Configure_unknown_token by assumption. cbn -[HasError decoded].
    now rewrite HasError_token_error. }
  destruct (decide (token = "")) as [Hm|Hm].
  { rewrite Configure_missing_token by assumption. cbn -[HasError decoded].
    now rewrite HasError_token_error. }
  rewrite Configure_configured by assumption.
  cbn [snd Response Diagnostics Trace Clients DataSourceData ResourceData].
  intros _. repeat split.
  - now read_trace.
  - apply list_lookup_middle. reflexivity.
Qed.

(** C7. With LEASEWEB_TOKEN=abc123 the only variable of the environment, a
    configuration whose three attributes are null and that decodes without
    a diagnostic, and a fresh response, Configure records no diagnostic,
    builds one client with the token abc123 and with neither a host nor a
    scheme override, and shares it. *)
Theorem token_from_environment_only p ctx (tr : list Event) (cl : list client_Client) :
  let s := {| Environ := {[ "LEASEWEB_TOKEN" := "abc123" ]}; Trace := tr; Clients := cl;
              Response := fresh_response |} in
  let req := request types_StringNull types_StringNull types_StringNull [] in
  let s' := (Configure NewClient p ctx req s).2 in
  let optional := {| OptionalHost := None; OptionalScheme := None |} in
  Diagnostics (Response s') = []
  /\ HasError (Diagnostics (Response s')) = false
  /\ client_calls (Trace s') = client_calls tr ++ [("abc123", optional, version p)]
  /\ Clients s' = cl ++ [NewClient "abc123" optional (version p)]
  /\ DataSourceData (Response s') = Some (length cl)
  /\ ResourceData (Response s') = Some (length cl).
Proof.
  intros s req s' optional. subst s'.
  rewrite Configure_configured; [| reflexivity | discriminate].
  cbn [snd Response Diagnostics Trace Clients DataSourceData ResourceData].
  read_trace. repeat split.
Qed.

(** C9. On a configuration that decoded without error and whose token
    resolves to a non-empty value: when the host attribute is unknown, the
    resolved host is the empty string and the client is built without a
    host override, whatever the value of LEASEWEB_HOST; and the same for
    the scheme and LEASEWEB_SCHEME. *)
Theorem unknown_attribute_discards_environment p ctx req s :
  HasError (decoded (Response s) req) = false ->
  merged (Token (Values (Config req))) (getenv (Environ s) "LEASEWEB_TOKEN") <> "" ->
  let s' := (Configure NewClient p ctx req s).2 in
  let host := merged (Host (Values (Config req))) (getenv (Environ s) "LEASEWEB_HOST") in
  let scheme := merged (Scheme (Values (Config req))) (getenv (Environ s) "LEASEWEB_SCHEME") in
  let token := merged (Token (Values (Config req))) (getenv (Environ s) "LEASEWEB_TOKEN") in
  (Host (Values (Config req)) = types_StringUnknown ->
     host = ""
     /\ client_calls (Trace s') = client_calls (Trace s)
          ++ [(token, {| OptionalHost := None; OptionalScheme := override scheme |}, version p)]
     /\ Clients s' = Clients s
          ++ [NewClient token {| OptionalHost := None; OptionalScheme := override scheme |}
                (version p)])
  /\ (Scheme (Values (Config req)) = types_StringUnknown ->
     scheme = ""
     /\ client_calls (Trace s') = client_calls (Trace s)
          ++ [(token, {| OptionalHost := override host; OptionalScheme := None |}, version p)]
     /\ Clients s' = Clients s
          ++ [NewClient token {| OptionalHost := override host; OptionalScheme := None |}
                (version p)]).
Proof.
  intros Hgate Htoken s' host scheme token. subst s'.
  rewrite Configure_configured by assumption. fold host scheme token.
  cbn [snd Trace Clients]. read_trace.
  split; intros Hu.
  - assert (host = "") as Hh by (subst host; now rewrite Hu). rewrite Hh. auto.
  - assert (scheme = "") as Hs by (subst scheme; now rewrite Hu). rewrite Hs. auto.
Qed.

(** C10. On a configuration that decoded without error and whose token
    resolves to a non-empty value: when the host attribute is known and is
    the empty string, the client is built without a host override, as if
    the host had never been set, whatever the value of LEASEWEB_HOST; and
    the same for the scheme and LEASEWEB_SCHEME. *)
Theorem empty_attribute_gives_no_override p ctx req s :
  HasError (decoded (Response s) req) = false ->
  merged (Token (Values (Config req))) (getenv (Environ s) "LEASEWEB_TOKEN") <> "" ->
  let s' := (Configure NewClient p ctx req s).2 in
  let host := merged (Host (Values (Config req))) (getenv (Environ s) "LEASEWEB_HOST") in
  let scheme := merged (Scheme (Values (Config req))) (getenv (Environ s) "LEASEWEB_SCHEME") in
  let token := merged (Token (Values (Config req))) (getenv (Environ s) "LEASEWEB_TOKEN") in
  (Host (Values (Config req)) = types_StringValue "" ->
     client_calls (Trace s') = client_calls (Trace s)
       ++ [(token, {| OptionalHost := None; OptionalScheme := override scheme |}, version p)]
     /\ Clients s' = Clients s
          ++ [NewClient token {| OptionalHost := None; OptionalScheme := override scheme |}
                (version p)])
  /\ (Scheme (Values (Config req)) = types_StringValue "" ->
     client_calls (Trace s') = client_calls (Trace s)
       ++ [(token, {| OptionalHost := override host; OptionalScheme := None |}, version p)]
     /\ Clients s' = Clients s
          ++ [NewClient token {| OptionalHost := override host; OptionalScheme := None |}
                (version p)]).
Proof.
  intros Hgate Htoken s' host scheme token. subst s'.
  rewrite Configure_configured by assumption. fold host scheme token.
  cbn [snd Trace Clients]. read_trace.
  split; intros Hu.
  - assert (host = "") as Hh by (subst host; now rewrite Hu). rewrite Hh. auto.
  - assert (scheme = "") as Hs by (subst scheme; now rewrite Hu). rewrite Hs. auto.
Qed.

(** Configure sees the environment through [getenv] only. *)
Lemma Configure_env_ext p ctx req s (env env' : gmap string string) :
  (forall name, getenv env name = getenv env' name) ->
  let r := (Configure NewClient p ctx req (with_environ s env)).2 in
  let r' := (Configure NewClient p ctx req (with_environ s env')).2 in
  Trace r = Trace r' /\ Clients r = Clients r' /\ Response r = Response r'.
Proof.
  intros Hext r r'. subst r r'.
  destruct (HasError (decoded (Response s) req)) eqn:Hgate.
  { rewrite !Configure_decode_failed by assumption. cbn. auto. }
  destruct (IsUnknown (Token (Values (Config req)))) eqn:Hu.
  { rewrite !Configure_unknown_token by assumption. cbn. auto. }
  destruct (decide (merged (Token (Values (Config req))) (getenv env "LEASEWEB_TOKEN") = ""))
    as [Hm|Hm].
  - rewrite !Configure_missing_token; try assumption; cbn -[decoded]; auto.
    now rewrite <- Hext.
  - rewrite !Configure_configured; try assumption; cbn -[decoded].
    + rewrite !Hext. auto.
    + now rewrite <- Hext.
Qed.

Lemma getenv_empty_unset (env : gmap string string) (name n : string) :
  getenv (<[name := ""]> env) n = getenv (delete name env) n.
Proof.
  unfold getenv. destruct (decide (name = n)) as [->|Hne].
  - now rewrite lookup_insert_eq, lookup_delete_eq.
  - now rewrite lookup_insert_ne, lookup_delete_ne.
Qed.

(** C4, as amended. On a configuration that decoded without error and whose
    token resolves to a non-empty value, the host override that the client
    is built with is: the value of the configuration when it is known and
    not the empty string; none when it is known and the empty string; for a
    null attribute, the value of LEASEWEB_HOST when it is set and not
    empty, and none otherwise. The same holds of the scheme and
    LEASEWEB_SCHEME. A variable set to the empty string and a variable that
    is not set give the same trace, clients and response. *)
Theorem override_precedence p ctx req s :
  HasError (decoded (Response s) req) = false ->
  merged (Token (Values (Config req))) (getenv (Environ s) "LEASEWEB_TOKEN") <> "" ->
  let s' := (Configure NewClient p ctx req s).2 in
  let from_env (name : string) : option string :=
    match Environ s !! name with
    | Some e => if String.eqb e "" then None else Some e
    | None => None
    end in
  (exists token optional,
     client_calls (Trace s') = client_calls (Trace s) ++ [(token, optional, version p)]
     /\ Clients s' = Clients s ++ [NewClient token optional (version p)]
     /\ (forall v, Host (Values (Config req)) = types_StringValue v ->
           OptionalHost optional = if String.eqb v "" then None else Some v)
     /\ (Host (Values (Config req)) = types_StringNull ->
           OptionalHost optional = from_env "LEASEWEB_HOST")
     /\ (forall v, Scheme (Values (Config req)) = types_StringValue v ->
           OptionalScheme optional = if String.eqb v "" then None else Some v)
     /\ (Scheme (Values (Config req)) = types_StringNull ->
           OptionalScheme optional = from_env "LEASEWEB_SCHEME"))
  /\ (forall name,
        let empty := (Configure NewClient p ctx req
                        (with_environ s (<[name := ""]> (Environ s)))).2 in
        let unset := (Configure NewClient p ctx req
                        (with_environ s (delete name (Environ s)))).2 in
        Trace empty = Trace unset /\ Clients empty = Clients unset
        /\ Response empty = Response unset).
Proof.
  intros Hgate Htoken s' from_env. subst s'. split.
  - rewrite Configure_configured by assumption.
    eexists _, _. cbn [snd Trace Clients]. read_trace.
    split; [reflexivity|]. split; [reflexivity|].
    cbn [OptionalHost OptionalScheme]. unfold override, merged, getenv, from_env.
    repeat split.
    + intros v ->. cbn. now destruct (v =? "").
    + intros ->. cbn. destruct (Environ s !! "LEASEWEB_HOST") as [e|]; cbn; [|reflexivity].
      now destruct (e =? "").
    + intros v ->. cbn. now destruct (v =? "").
    + intros ->. cbn. destruct (Environ s !! "LEASEWEB_SCHEME") as [e|]; cbn; [|reflexivity].
      now destruct (e =? "").
  - intros name. apply Configure_env_ext. intros n. apply getenv_empty_unset.
Qed.


(** C6. The lists that DataSources and Resources return do not depend on
    the state of the process: two calls, before or after Configure, whether
    it succeeded or failed, return the same constructors in the same
    order, and a call changes nothing in the process. *)
Theorem registry_is_fixed p ctx ctx' s s' :
  (DataSources p ctx s).1 = (DataSources p ctx' s').1
  /\ (Resources p ctx s).1 = (Resources p ctx' s').1
  /\ (DataSources p ctx s).2 = s
  /\ (Resources p ctx s).2 = s
  /\ (forall req ctx0,
        (DataSources p ctx (Configure NewClient p ctx0 req s).2).1 = (DataSources p ctx s).1
        /\ (Resources p ctx (Configure NewClient p ctx0 req s).2).1 = (Resources p ctx s).1).
Proof. repeat split. Qed.

End Claims.

(** ** The claims at concrete inputs *)

Ltac at_input := vm_compute; try reflexivity; try discriminate.

(** C1 at a configuration with an unknown token, LEASEWEB_TOKEN being set:
    decoding reported nothing, and the unknown token is the only error. *)
Lemma unknown_token_stops_resolution_witness :
  let req := request types_StringNull types_StringUnknown types_StringNull [] in
  let s' := run env_token_only req in
  let d := token_error unknown_token_summary unknown_token_detail in
  Token (Values (Config req)) = types_StringUnknown
  /\ HasError (decoded (Response (start env_token_only)) req) = false
  /\ Trace s' = []
  /\ Clients s' = []
  /\ DataSourceData (Response s') = None
  /\ ResourceData (Response s') = None
  /\ Diagnostics (Response s') = [d]
  /\ List.filter is_error (Diagnostics (Response s')) = [d].
Proof.
  intros req s' d.
  destruct (unknown_token_stops_resolution Build_recording_Client dev context_Background
              req (start env_token_only) eq_refl)
    as (Htrace & _ & _ & Hclients & Hdata & Hres & Hdiag).
  destruct (Hdiag eq_refl) as (Hall & Herrors & _).
  repeat split; assumption.
Defined.

(** C3 at a configuration without a token, in an empty environment. *)
Lemma missing_token_is_reported_witness :
  let req := request types_StringNull types_StringNull types_StringNull [] in
  let s' := run ∅ req in
  let d := token_error missing_token_summary missing_token_detail in
  Token (Values (Config req)) <> types_StringUnknown
  /\ merged (Token (Values (Config req))) (getenv (Environ (start ∅)) "LEASEWEB_TOKEN") = ""
  /\ HasError (decoded (Response (start ∅)) req) = false
  /\ client_calls (Trace s') = []
  /\ Clients s' = []
  /\ DataSourceData (Response s') = None
  /\ ResourceData (Response s') = None
  /\ Diagnostics (Response s') = [d]
  /\ List.filter is_error (Diagnostics (Response s')) = [d].
Proof.
  intros req s' d.
  assert (Token (Values (Config req)) <> types_StringUnknown) as Hknown by discriminate.
  assert (merged (Token (Values (Config req))) (getenv (Environ (start ∅)) "LEASEWEB_TOKEN")
          = "") as Hempty by reflexivity.
  destruct (missing_token_is_reported Build_recording_Client dev context_Background
              req (start ∅) Hknown Hempty)
    as (Hcalls & Hclients & Hdata & Hres & Hdiag).
  destruct (Hdiag eq_refl) as (Hall & Herrors & _).
  repeat split; assumption.
Defined.

(** C5 at a configuration with an unknown token. *)
Lemma error_produces_no_client_witness :
  let req := request types_StringNull types_StringUnknown types_StringNull [] in
  HasError (Diagnostics (Response (run env_all req))) = true
  /\ DataSourceData (Response (run env_all req)) = DataSourceData (Response (start env_all))
  /\ ResourceData (Response (run env_all req)) = ResourceData (Response (start env_all))
  /\ Clients (run env_all req) = Clients (start env_all)
  /\ client_calls (Trace (run env_all req)) = client_calls (Trace (start env_all)).
Proof.
  intros req. split; [reflexivity|].
  apply (error_produces_no_client Build_recording_Client dev context_Background
           req (start env_all)). reflexivity.
Defined.

(** C8 at a configuration that sets the host, the token coming from the
    environment. *)
Lemma success_shares_one_client_witness :
  let req := request (types_StringValue "custom.example.com") types_StringNull
               types_StringNull [] in
  let token := "abc123" in
  let optional := {| OptionalHost := Some "custom.example.com"; OptionalScheme := Some "http" |} in
  HasError (Diagnostics (Response (run env_all req))) = false
  /\ client_calls (Trace (run env_all req)) = [(token, optional, "dev")]
  /\ Clients (run env_all req) = [Build_recording_Client token optional "dev"]
  /\ DataSourceData (Response (run env_all req)) = Some 0
  /\ ResourceData (Response (run env_all req)) = Some 0
  /\ Clients (run env_all req) !! 0 = Some (Build_recording_Client token optional "dev").
Proof.
  intros req token optional. split; [reflexivity|].
  apply (success_shares_one_client Build_recording_Client dev context_Background
           req (start env_all)). reflexivity.
Defined.

(** C9 at a configuration whose host and scheme are unknown, both
    LEASEWEB_HOST and LEASEWEB_SCHEME being set. *)
Lemma unknown_attribute_discards_environment_witness :
  let req := request types_StringUnknown (types_StringValue "t0ken") types_StringUnknown [] in
  let s' := run env_all req in
  HasError (decoded (Response (start env_all)) req) = false
  /\ merged (Token (Values (Config req))) (getenv env_all "LEASEWEB_TOKEN") <> ""
  /\ Host (Values (Config req)) = types_StringUnknown
  /\ Scheme (Values (Config req)) = types_StringUnknown
  /\ getenv env_all "LEASEWEB_HOST" = "other.example.com"
  /\ getenv env_all "LEASEWEB_SCHEME" = "http"
  /\ client_calls (Trace s')
     = [("t0ken", {| OptionalHost := None; OptionalScheme := None |}, "dev")]
  /\ Clients s'
     = [Build_recording_Client "t0ken" {| OptionalHost := None; OptionalScheme := None |}
          "dev"].
Proof.
  intros req s'.
  assert (merged (Token (Values (Config req))) (getenv env_all "LEASEWEB_TOKEN") <> "")
    as Htoken by discriminate.
  destruct (unknown_attribute_discards_environment Build_recording_Client dev
              context_Background req (start env_all) eq_refl Htoken) as [Hhost _].
  destruct (Hhost eq_refl) as (_ & Hcalls & Hclients).
  repeat split; assumption.
Defined.

(** C10 at a configuration whose host and scheme are the empty string, both
    LEASEWEB_HOST and LEASEWEB_SCHEME being set. *)
Lemma empty_attribute_gives_no_override_witness :
  let req := request (types_StringValue "") (types_StringValue "t0ken")
               (types_StringValue "") [] in
  let s' := run env_all req in
  let optional := {| OptionalHost := None; OptionalScheme := None |} in
  HasError (decoded (Response (start env_all)) req) = false
  /\ merged (Token (Values (Config req))) (getenv env_all "LEASEWEB_TOKEN") <> ""
  /\ Host (Values (Config req)) = types_StringValue ""
  /\ Scheme (Values (Config req)) = types_StringValue ""
  /\ getenv env_all "LEASEWEB_HOST" = "other.example.com"
  /\ getenv env_all "LEASEWEB_SCHEME" = "http"
  /\ client_calls (Trace s') = [("t0ken", optional, "dev")]
  /\ Clients s' = [Build_recording_Client "t0ken" optional "dev"].
Proof.
  intros req s' optional.
  assert (merged (Token (Values (Config req))) (getenv env_all "LEASEWEB_TOKEN") <> "")
    as Htoken by discriminate.
  destruct (empty_attribute_gives_no_override Build_recording_Client dev
              context_Background req (start env_all) eq_refl Htoken) as [Hhost _].
  destruct (Hhost eq_refl) as (Hcalls & Hclients).
  repeat split; assumption.
Defined.

(** C4 as stated fails at a host that the configuration sets to the empty
    string: the specification's override is that empty string, the client
    is built without a host override (and LEASEWEB_HOST is not used). *)
Lemma known_empty_host_counterexample :
  let req := request (types_StringValue "") (types_StringValue "t0ken") types_StringNull [] in
  let stated := stated_override (Host (Values (Config req))) (env_all !! "LEASEWEB_HOST") in
  HasError (Diagnostics (Response (run env_all req))) = false
  /\ client_calls (Trace (run env_all req))
     = [("t0ken", {| OptionalHost := None; OptionalScheme := Some "http" |}, "dev")]
  /\ stated = Some ""
  /\ (fun call => OptionalHost call.1.2) <$> client_calls (Trace (run env_all req)) <> [stated].
Proof. repeat split; at_input. Qed.

(** C4 as amended, at the host custom.example.com of the configuration with
    LEASEWEB_HOST=other.example.com, and a null scheme with
    LEASEWEB_SCHEME=http. *)
Lemma override_precedence_witness :
  let req := request (types_StringValue "custom.example.com") types_StringNull
               types_StringNull [] in
  let s' := run env_all req in
  HasError (decoded (Response (start env_all)) req) = false
  /\ merged (Token (Values (Config req))) (getenv env_all "LEASEWEB_TOKEN") <> ""
  /\ exists token optional,
       client_calls (Trace s') = [(token, optional, "dev")]
       /\ OptionalHost optional = Some "custom.example.com"
       /\ OptionalScheme optional = Some "http".
Proof.
  intros req s'.
  assert (merged (Token (Values (Config req))) (getenv env_all "LEASEWEB_TOKEN") <> "")
    as Htoken by discriminate.
  destruct (override_precedence Build_recording_Client dev context_Background
              req (start env_all) eq_refl Htoken)
    as [(token & optional & Hcalls & _ & Hhost & _ & _ & Hscheme) _].
  split; [reflexivity|]. split; [assumption|].
  exists token, optional. split; [exact Hcalls|].
  split; [exact (Hhost _ eq_refl) | exact (Hscheme eq_refl)].
Defined.



(** C1 as stated fails when decoding reports an error: with an unknown
    token and an error of decoding on the host, Configure returns at line
    88 and the response holds that error only, none on the path token. *)
Lemma unknown_token_after_decoding_error_counterexample :
  let req := request types_StringNull types_StringUnknown types_StringNull [decoding_error] in
  let on_token (d : diag_Diagnostic) := bool_decide (Path d = Some (path_Root "token")) in
  Token (Values (Config req)) = types_StringUnknown
  /\ Diagnostics (Response (run env_token_only req)) = [decoding_error]
  /\ List.filter on_token (Diagnostics (Response (run env_token_only req))) = [].
Proof. repeat split; at_input. Qed.

(** C3 as stated fails when decoding reports an error: with a null token,
    no LEASEWEB_TOKEN and an error of decoding on the host, Configure
    returns at line 88 and the response holds that error only, none on the
    path token. *)
Lemma missing_token_after_decoding_error_counterexample :
  let req := request types_StringNull types_StringNull types_StringNull [decoding_error] in
  let on_token (d : diag_Diagnostic) := bool_decide (Path d = Some (path_Root "token")) in
  Token (Values (Config req)) = types_StringNull
  /\ merged (Token (Values (Config req))) (getenv ∅ "LEASEWEB_TOKEN") = ""
  /\ Diagnostics (Response (run ∅ req)) = [decoding_error]
  /\ List.filter on_token (Diagnostics (Response (run ∅ req))) = [].
Proof. repeat split; at_input. Qed.

(** * More of the provider *)

(** ** Configure: outcomes *)

Lemma Append_extends (new ds : diag_Diagnostics) :
  exists added, Append ds new = ds ++ added.
Proof.
  unfold Append. revert ds. induction new as [|d new IH]; intros ds; cbn.
  - exists []. now rewrite app_nil_r.
  - destruct (Contains ds d).
    + apply IH.
    + destruct (IH (ds ++ [d])) as [added ->]. exists (d :: added).
      now rewrite <- app_assoc.
Qed.

Lemma decoded_has_error (r : provider_ConfigureResponse) (req : provider_ConfigureRequest) :
  HasError (decoded r req) = HasError (Diagnostics r) || HasError (Reported (Config req)).
Proof. apply HasError_Append. Qed.

Lemma merged_unknown (attribute : types_String) (env_value : string) :
  IsUnknown attribute = true -> merged attribute env_value = "".
Proof. destruct attribute; cbn; congruence. Qed.

Section Outcomes.

Context {client_Client : Type}.
Variable NewClient : string -> client_Optional -> string -> client_Client.

Implicit Types (p : leasewebProvider) (ctx : context_Context).
Implicit Types (req : provider_ConfigureRequest) (s : Process client_Client).

(** The four ways through [Configure], by what decides them. *)
Ltac by_path req s :=
  destruct (HasError (decoded (Response s) req)) eqn:Hgate;
  [ rewrite ?Configure_decode_failed by assumption
  | destruct (IsUnknown (Token (Values (Config req)))) eqn:Hu;
    [ rewrite ?Configure_unknown_token by assumption
    | destruct (decide (merged (Token (Values (Config req)))
                          (getenv (Environ s) "LEASEWEB_TOKEN") = "")) as [Hm|Hm];
      [ rewrite ?Configure_missing_token by assumption
      | rewrite ?Configure_configured by assumption ] ] ].

(** X1. Configure ends without an error in the response exactly when the
    response held no error before, decoding reported none, and the merged
    token is not the empty string. *)
Theorem Configure_succeeds_iff p ctx req s :
  HasError (Diagnostics (Response (Configure NewClient p ctx req s).2)) = false
  <-> (HasError (Diagnostics (Response s)) = false
       /\ HasError (Reported (Config req)) = false
       /\ merged (Token (Values (Config req))) (getenv (Environ s) "LEASEWEB_TOKEN") <> "").
Proof.
  pose proof (decoded_has_error (Response s) req) as Hd.
  by_path req s; cbn -[HasError decoded merged getenv].
  - rewrite Hgate. symmetry in Hd. apply orb_true_iff in Hd.
    split; [discriminate|]. intros (H1 & H2 & _). destruct Hd; congruence.
  - rewrite HasError_token_error. split; [discriminate|]. intros (_ & _ & H).
    now rewrite merged_unknown in H.
  - rewrite HasError_token_error. split; [discriminate|]. intros (_ & _ & H). contradiction.
  - rewrite Hgate. symmetry in Hd. apply orb_false_iff in Hd as [H1 H2]. tauto.
Qed.

(** X2. When the response holds an error before the call, or decoding
    reports one, Configure appends what decoding reported and does nothing
    else: the token is not checked (no diagnostic on the token, even for an
    unknown or missing token), no environment variable is read, no client
    is built, nothing is logged. *)
Theorem earlier_error_stops_Configure p ctx req s :
  HasError (Diagnostics (Response s)) = true \/ HasError (Reported (Config req)) = true ->
  let s' := (Configure NewClient p ctx req s).2 in
  Diagnostics (Response s') = Append (Diagnostics (Response s)) (Reported (Config req))
  /\ Trace s' = Trace s
  /\ Clients s' = Clients s
  /\ Environ s' = Environ s
  /\ DataSourceData (Response s') = DataSourceData (Response s)
  /\ ResourceData (Response s') = ResourceData (Response s).
Proof.
  intros H s'. subst s'.
  rewrite Configure_decode_failed.
  - cbn. auto 7.
  - rewrite decoded_has_error. apply orb_true_iff. exact H.
Qed.

(** X3. Configure adds at most one diagnostic of its own to those of
    decoding, an error on the path [token]: the unknown-token error, for
    an unknown token only, or the missing-token error, for a token that is
    not unknown only; never both. *)
Theorem at_most_one_token_error p ctx req s :
  let s' := (Configure NewClient p ctx req s).2 in
  exists added,
    Diagnostics (Response s') = decoded (Response s) req ++ added
    /\ (added = []
        \/ (added = [token_error unknown_token_summary unknown_token_detail]
            /\ Token (Values (Config req)) = types_StringUnknown)
        \/ (added = [token_error missing_token_summary missing_token_detail]
            /\ Token (Values (Config req)) <> types_StringUnknown))
    /\ (forall d, In d added ->
          Severity d = diag_SeverityError /\ Path d = Some (path_Root "token")).
Proof.
  intros s'. subst s'. by_path req s; cbn -[decoded].
  - exists []. rewrite app_nil_r. split; [reflexivity|]. split; [auto|]. intros d [].
  - eexists. split; [reflexivity|]. split.
    + right. left. split; [reflexivity|].
      destruct (Token (Values (Config req))); cbn in Hu; congruence.
    + intros d [<-|[]]. auto.
  - eexists. split; [reflexivity|]. split.
    + right. right. split; [reflexivity|].
      destruct (Token (Values (Config req))); cbn in Hu; congruence.
    + intros d [<-|[]]. auto.
  - exists []. rewrite app_nil_r. split; [reflexivity|]. split; [auto|]. intros d [].
Qed.

(** X4. Configure only adds: the diagnostics, the trace and the clients
    after the call are those before the call followed by new ones (nothing
    is dropped or reordered), and the environment is left as it is. *)
Theorem Configure_only_extends p ctx req s :
  let s' := (Configure NewClient p ctx req s).2 in
  (exists ds, Diagnostics (Response s') = Diagnostics (Response s) ++ ds)
  /\ (exists tr, Trace s' = Trace s ++ tr)
  /\ (exists cl, Clients s' = Clients s ++ cl)
  /\ Environ s' = Environ s.
Proof.
  intros s'. subst s'.
  destruct (Append_extends (Reported (Config req)) (Diagnostics (Response s))) as [added Ha].
  by_path req s; cbn -[decoded]; unfold decoded; rewrite Ha.
  - repeat split; [eexists; reflexivity | exists []| exists []]; now rewrite app_nil_r.
  - repeat split; [rewrite <- app_assoc; eexists; reflexivity | exists []| exists []];
      now rewrite app_nil_r.
  - repeat split; [rewrite <- app_assoc; eexists; reflexivity | eexists; reflexivity | exists []].
    now rewrite app_nil_r.
  - repeat split; eexists; reflexivity.
Qed.

(** X5. Configure reads the environment exactly when it gets past the check
    of the unknown token: then it reads LEASEWEB_HOST, LEASEWEB_SCHEME and
    LEASEWEB_TOKEN, in this order and once each, also when the
    configuration gives all three values; otherwise it reads nothing. *)
Theorem environment_reads p ctx req s :
  let s' := (Configure NewClient p ctx req s).2 in
  env_reads (Trace s') =
    env_reads (Trace s)
    ++ (if HasError (decoded (Response s) req) || IsUnknown (Token (Values (Config req)))
        then []
        else ["LEASEWEB_HOST"; "LEASEWEB_SCHEME"; "LEASEWEB_TOKEN"]).
Proof.
  intros s'. subst s'.
  by_path req s; cbn [snd Trace orb]; now read_trace.
Qed.

(** X6. Configure logs only when it succeeds: with an error in the response
    nothing is written to the log. Without one, the entry [Configured
    Leaseweb client] is written exactly when the context writes it (it
    holds a logger of the provider, at a level that writes info entries,
    and omits nothing), and nothing is written otherwise; the entry is
    then the last call to the outside, right after the client was
    built. *)
Theorem logs_only_on_success p ctx req s :
  let s' := (Configure NewClient p ctx req s).2 in
  let host := merged (Host (Values (Config req))) (getenv (Environ s) "LEASEWEB_HOST") in
  let scheme := merged (Scheme (Values (Config req))) (getenv (Environ s) "LEASEWEB_SCHEME") in
  let token := merged (Token (Values (Config req))) (getenv (Environ s) "LEASEWEB_TOKEN") in
  let written :=
    if HasError (Diagnostics (Response s')) || negb (logs_configured ctx host scheme token)
    then []
    else [configured_entry ctx host scheme token] in
  log_entries (Trace s') = log_entries (Trace s) ++ written
  /\ (HasError (Diagnostics (Response s')) = false ->
        exists before optional,
          Trace s' = before ++ [EvNewClient token optional (version p)]
                            ++ (EvLog <$> written)).
Proof.
  intros s' host scheme token. subst s'.
  by_path req s; cbn [snd Trace Response Diagnostics with_diagnostics];
    rewrite ?HasError_token_error, ?Hgate; cbn [orb]; read_trace.
  - split; [reflexivity | discriminate].
  - split; [reflexivity | discriminate].
  - split; [reflexivity | discriminate].
  - fold host scheme token. unfold configured_log.
    destruct (logs_configured ctx host scheme token); cbn [negb].
    + split; [reflexivity|]. intros _.
      exists (Trace s ++ [EvGetenv "LEASEWEB_HOST"; EvGetenv "LEASEWEB_SCHEME";
                          EvGetenv "LEASEWEB_TOKEN"]).
      eexists. rewrite <- !app_assoc. reflexivity.
    + split; [now rewrite app_nil_r|]. intros _.
      exists (Trace s ++ [EvGetenv "LEASEWEB_HOST"; EvGetenv "LEASEWEB_SCHEME";
                          EvGetenv "LEASEWEB_TOKEN"]).
      eexists. rewrite <- !app_assoc. reflexivity.
Qed.

(** X7. A token of the configuration that is known and not empty wins over
    LEASEWEB_TOKEN: once the configuration decoded without error, the
    client is built with the token of the configuration, whatever the
    environment holds. *)
Theorem configured_token_wins p ctx req s (v : string) :
  HasError (decoded (Response s) req) = false ->
  Token (Values (Config req)) = types_StringValue v ->
  v <> "" ->
  let s' := (Configure NewClient p ctx req s).2 in
  exists optional,
    client_calls (Trace s') = client_calls (Trace s) ++ [(v, optional, version p)]
    /\ Clients s' = Clients s ++ [NewClient v optional (version p)]
    /\ HasError (Diagnostics (Response s')) = false.
Proof.
  intros Hgate Htoken Hv s'. subst s'.
  rewrite Configure_configured; [| assumption | rewrite Htoken; exact Hv].
  rewrite Htoken. cbn [snd Trace Clients Response Diagnostics merged IsNull negb ValueString].
  eexists. read_trace. repeat split. assumption.
Qed.

(** X8. A token that the configuration sets to the empty string hides
    LEASEWEB_TOKEN: once the configuration decoded without error, Configure
    reports the missing token and builds no client, also when the
    environment holds a token. *)
Theorem empty_configured_token_hides_environment p ctx req s :
  HasError (decoded (Response s) req) = false ->
  Token (Values (Config req)) = types_StringValue "" ->
  let s' := (Configure NewClient p ctx req s).2 in
  Diagnostics (Response s')
    = decoded (Response s) req ++ [token_error missing_token_summary missing_token_detail]
  /\ HasError (Diagnostics (Response s')) = true
  /\ client_calls (Trace s') = client_calls (Trace s)
  /\ Clients s' = Clients s.
Proof.
  intros Hgate Htoken s'. subst s'.
  rewrite Configure_missing_token; [| assumption | now rewrite Htoken | now rewrite Htoken].
  cbn [snd Trace Clients Response Diagnostics with_diagnostics].
  rewrite HasError_token_error, client_calls_app. cbn. now rewrite app_nil_r.
Qed.

(** X9. Of the environment, Configure depends on the three variables
    LEASEWEB_HOST, LEASEWEB_SCHEME and LEASEWEB_TOKEN only: two
    environments that agree on them give the same trace, clients and
    response. *)
Theorem only_three_variables_matter p ctx req s (env env' : gmap string string) :
  getenv env "LEASEWEB_HOST" = getenv env' "LEASEWEB_HOST" ->
  getenv env "LEASEWEB_SCHEME" = getenv env' "LEASEWEB_SCHEME" ->
  getenv env "LEASEWEB_TOKEN" = getenv env' "LEASEWEB_TOKEN" ->
  let r := (Configure NewClient p ctx req (with_environ s env)).2 in
  let r' := (Configure NewClient p ctx req (with_environ s env')).2 in
  Trace r = Trace r' /\ Clients r = Clients r' /\ Response r = Response r'.
Proof.
  intros Hh Hs Ht r r'. subst r r'.
  destruct (HasError (decoded (Response s) req)) eqn:Hgate.
  { rewrite !Configure_decode_failed by assumption. cbn. auto. }
  destruct (IsUnknown (Token (Values (Config req)))) eqn:Hu.
  { rewrite !Configure_unknown_token by assumption. cbn. auto. }
  destruct (decide (merged (Token (Values (Config req))) (getenv env "LEASEWEB_TOKEN") = ""))
    as [Hm|Hm].
  - rewrite !Configure_missing_token; try assumption; cbn -[decoded]; auto.
    now rewrite <- Ht.
  - rewrite !Configure_configured; try assumption; cbn -[decoded].
    + rewrite Hh, Hs, Ht. auto.
    + now rewrite <- Ht.
Qed.

(** X10. The logging context decides the log entry and nothing else: with
    two contexts Configure leaves the same response and the same clients,
    and makes the same reads of the environment and the same calls to
    NewClient. *)
Theorem context_only_shapes_the_log p ctx ctx' req s :
  let r := (Configure NewClient p ctx req s).2 in
  let r' := (Configure NewClient p ctx' req s).2 in
  Response r = Response r'
  /\ Clients r = Clients r'
  /\ env_reads (Trace r) = env_reads (Trace r')
  /\ client_calls (Trace r) = client_calls (Trace r').
Proof.
  intros r r'. subst r r'.
  by_path req s; cbn [snd Trace Response Clients]; read_trace; auto.
Qed.

(** X11. Configure keeps the two shared clients equal: when the data
    sources and the resources were given the same client (or none) before
    the call, they are after it. *)
Theorem shared_clients_stay_equal p ctx req s :
  DataSourceData (Response s) = ResourceData (Response s) ->
  let s' := (Configure NewClient p ctx req s).2 in
  DataSourceData (Response s') = ResourceData (Response s').
Proof.
  intros H s'. subst s'. by_path req s; cbn; auto.
Qed.

(** X13. The version given to [New] is the version of every provider that
    the factory makes: Metadata reports it, with the type name leaseweb
    and whatever the response held, and every client that Configure builds
    is built with it. *)
Theorem version_of_New (v : string) (u : unit) (resp : provider_MetadataResponse)
    ctx req s :
  let p := New v u in
  let s' := (Configure NewClient p ctx req s).2 in
  Metadata p resp = {| TypeName := "leaseweb"; Version := v |}
  /\ (exists calls, client_calls (Trace s') = client_calls (Trace s) ++ calls
                    /\ forall call, In call calls -> call.2 = v).
Proof.
  intros p s'. subst s'. split; [reflexivity|].
  by_path req s; cbn [snd Trace]; read_trace.
  - exists []. rewrite app_nil_r. split; [reflexivity | intros call []].
  - exists []. rewrite app_nil_r. split; [reflexivity | intros call []].
  - exists []. rewrite app_nil_r. split; [reflexivity | intros call []].
  - eexists. split; [reflexivity|]. intros call [<-|[]]. reflexivity.
Qed.

End Outcomes.

(** ** The registry and the schema *)

Ltac no_duplicate :=
  repeat (apply NoDup_cons; split;
          [ let H := fresh in
            intros H; repeat (apply elem_of_cons in H as [H|H]; [discriminate H|]);
            apply elem_of_nil in H; exact H
          | ]);
  apply NoDup_nil_2.

(** X14. No constructor is registered twice: the fifteen constructors of
    data sources are pairwise distinct, and so are the sixteen constructors
    of resources, in every state of the process. *)
Theorem registry_has_no_duplicate {client_Client : Type} (p : leasewebProvider)
    (ctx : context_Context) (s : Process client_Client) :
  NoDup (DataSources p ctx s).1
  /\ length (DataSources p ctx s).1 = 15
  /\ NoDup (Resources p ctx s).1
  /\ length (Resources p ctx s).1 = 16.
Proof.
  split; [|split; [reflexivity|split; [|reflexivity]]].
  - cbn. no_duplicate.
  - cbn. no_duplicate.
Qed.

(** X15. The schema has exactly the attributes that the model of the
    configuration decodes (host, token and scheme); each of them is
    optional and none is required, so a configuration may leave all three
    out; the token is the only sensitive one. Schema leaves the diagnostics
    of its response as they are. *)
Theorem Schema_matches_model (p : leasewebProvider) (resp : provider_SchemaResponse) :
  let attributes := Attributes (ResponseSchema (Schema p resp)) in
  (forall name, is_Some (attributes !! name) <-> name ∈ leasewebProviderModel_tfsdk)
  /\ (forall name attribute, attributes !! name = Some attribute ->
        Optional attribute = true
        /\ Required attribute = false
        /\ (Sensitive attribute = true <-> name = "token"))
  /\ SchemaDiagnostics (Schema p resp) = SchemaDiagnostics resp.
Proof.
  intros attributes. subst attributes. cbn [Schema ResponseSchema Attributes SchemaDiagnostics].
  unfold leasewebProviderModel_tfsdk.
  split; [|split; [|reflexivity]].
  - intros name.
    destruct (decide (name = "host")) as [->|Hh].
    { rewrite lookup_insert_eq. split; [intros _|eauto]. set_solver. }
    rewrite lookup_insert_ne by congruence.
    destruct (decide (name = "scheme")) as [->|Hs].
    { rewrite lookup_insert_eq. split; [intros _|eauto]. set_solver. }
    rewrite lookup_insert_ne by congruence.
    destruct (decide (name = "token")) as [->|Ht].
    { rewrite lookup_insert_eq. split; [intros _|eauto]. set_solver. }
    rewrite lookup_insert_ne by congruence. rewrite lookup_empty.
    split; [intros [? [=]] |].
    intros H. repeat (apply elem_of_cons in H as [H|H]; [congruence|]).
    now apply elem_of_nil in H.
  - intros name attribute.
    destruct (decide (name = "host")) as [->|Hh].
    { rewrite lookup_insert_eq. intros [= <-]. cbn. repeat split; discriminate. }
    rewrite lookup_insert_ne by congruence.
    destruct (decide (name = "scheme")) as [->|Hs].
    { rewrite lookup_insert_eq. intros [= <-]. cbn. repeat split; discriminate. }
    rewrite lookup_insert_ne by congruence.
    destruct (decide (name = "token")) as [->|Ht].
    { rewrite lookup_insert_eq. intros [= <-]. cbn. repeat split; reflexivity. }
    rewrite lookup_insert_ne by congruence. rewrite lookup_empty. discriminate.
Qed.

(** ** Configure: calls that follow one another *)

Section Sequences.

Context {client_Client : Type}.
Variable NewClient : string -> client_Optional -> string -> client_Client.

Implicit Types (p : leasewebProvider) (ctx : context_Context).
Implicit Types (req : provider_ConfigureRequest) (s : Process client_Client).

(** X16. A failure is final for the response: once Configure left an error
    in it, a later Configure on the same response, with any provider,
    context, request and environment (a token may have been set
    meanwhile), reads no variable, builds no client, logs nothing, leaves
    the shared clients as the first call found them, and the response
    still holds an error. *)
Theorem failure_is_final p ctx req s p' ctx' req' (env' : gmap string string) :
  let s1 := (Configure NewClient p ctx req s).2 in
  let s2 := (Configure NewClient p' ctx' req' (with_environ s1 env')).2 in
  HasError (Diagnostics (Response s1)) = true ->
  Trace s2 = Trace s1
  /\ Clients s2 = Clients s
  /\ DataSourceData (Response s2) = DataSourceData (Response s)
  /\ ResourceData (Response s2) = ResourceData (Response s)
  /\ HasError (Diagnostics (Response s2)) = true.
Proof.
  intros s1 s2 Hfailed.
  assert (Clients s1 = Clients s
          /\ DataSourceData (Response s1) = DataSourceData (Response s)
          /\ ResourceData (Response s1) = ResourceData (Response s)) as (Hc & Hd & Hr).
  { subst s1. revert Hfailed.
    destruct (HasError (decoded (Response s) req)) eqn:Hg.
    { now rewrite Configure_decode_failed. }
    destruct (IsUnknown (Token (Values (Config req)))) eqn:Hu.
    { now rewrite Configure_unknown_token. }
    destruct (decide (merged (Token (Values (Config req)))
                        (getenv (Environ s) "LEASEWEB_TOKEN") = "")) as [Hm|Hm].
    { now rewrite Configure_missing_token. }
    rewrite Configure_configured by assumption. cbn -[decoded HasError]. congruence. }
  assert (HasError (decoded (Response (with_environ s1 env')) req') = true) as Hgate.
  { rewrite decoded_has_error. cbn [with_environ Response]. now rewrite Hfailed. }
  subst s2. rewrite Configure_decode_failed by exact Hgate.
  cbn [snd Trace Clients Response with_environ with_diagnostics
       Diagnostics DataSourceData ResourceData].
  auto.
Qed.

(** X17. Configure is not idempotent: when a call succeeded, a second call
    with the same request succeeds again, builds a second client from the
    same token, overrides and version, and points both shared clients to
    the second one; the first client stays where it was. *)
Theorem second_Configure_builds_a_second_client p ctx ctx' req s :
  let s1 := (Configure NewClient p ctx req s).2 in
  let s2 := (Configure NewClient p ctx' req s1).2 in
  let n := length (Clients s) in
  HasError (Diagnostics (Response s1)) = false ->
  exists c,
    Clients s1 = Clients s ++ [c]
    /\ Clients s2 = Clients s ++ [c; c]
    /\ DataSourceData (Response s1) = Some n
    /\ DataSourceData (Response s2) = Some (S n)
    /\ ResourceData (Response s2) = Some (S n)
    /\ HasError (Diagnostics (Response s2)) = false.
Proof.
  intros s1 s2 n Hok. subst s2 s1 n. revert Hok.
  destruct (HasError (decoded (Response s) req)) eqn:Hg.
  { rewrite Configure_decode_failed by assumption. cbn -[decoded HasError]. congruence. }
  destruct (IsUnknown (Token (Values (Config req)))) eqn:Hu.
  { rewrite Configure_unknown_token by assumption. cbn -[decoded HasError].
    now rewrite HasError_token_error. }
  destruct (decide (merged (Token (Values (Config req)))
                      (getenv (Environ s) "LEASEWEB_TOKEN") = "")) as [Hm|Hm].
  { rewrite Configure_missing_token by assumption. cbn -[decoded HasError].
    now rewrite HasError_token_error. }
  rewrite Configure_configured by assumption. cbn [snd].
  intros Hok. cbn [Response Diagnostics] in Hok.
  assert (HasError (Reported (Config req)) = false) as Hrep.
  { rewrite decoded_has_error in Hg. now apply orb_false_iff in Hg. }
  rewrite Configure_configured.
  - cbn [snd Clients Response Diagnostics DataSourceData ResourceData Environ].
    eexists. split; [reflexivity|]. rewrite <- app_assoc.
    split; [reflexivity|]. split; [reflexivity|].
    rewrite length_app, Nat.add_1_r. split; [reflexivity|]. split; [reflexivity|].
    rewrite decoded_has_error. cbn [Diagnostics]. now rewrite Hg, Hrep.
  - rewrite decoded_has_error. cbn [Response Diagnostics]. now rewrite Hg, Hrep.
  - exact Hm.
Qed.

(** X18. Host and scheme never make Configure fail: two requests with the
    same token and the same diagnostics of decoding leave the same
    diagnostics in the response and make the same reads of the
    environment, whatever their host and scheme are (null, unknown or any
    string). *)
Theorem host_and_scheme_never_fail p ctx req req' s :
  Token (Values (Config req)) = Token (Values (Config req')) ->
  Reported (Config req) = Reported (Config req') ->
  let r := (Configure NewClient p ctx req s).2 in
  let r' := (Configure NewClient p ctx req' s).2 in
  Diagnostics (Response r) = Diagnostics (Response r')
  /\ env_reads (Trace r) = env_reads (Trace r')
  /\ length (Clients r) = length (Clients r').
Proof.
  intros Htoken Hreported r r'. subst r r'.
  assert (decoded (Response s) req = decoded (Response s) req') as Hd
    by (unfold decoded; now rewrite Hreported).
  destruct (HasError (decoded (Response s) req)) eqn:Hg.
  { rewrite !Configure_decode_failed by congruence. cbn -[decoded]. auto. }
  destruct (IsUnknown (Token (Values (Config req)))) eqn:Hu.
  { rewrite !Configure_unknown_token by congruence. cbn -[decoded]. rewrite Hd. auto. }
  destruct (decide (merged (Token (Values (Config req)))
                      (getenv (Environ s) "LEASEWEB_TOKEN") = "")) as [Hm|Hm].
  { rewrite !Configure_missing_token by congruence. cbn -[decoded]. rewrite Hd. auto. }
  rewrite !Configure_configured by congruence.
  cbn [snd Trace Clients Response Diagnostics]. rewrite Hd, !length_app. read_trace.
  auto.
Qed.

End Sequences.

(** ** The properties at concrete inputs *)

(** X2 at a configuration that does not decode, with an unknown token. *)
Lemma earlier_error_stops_Configure_witness :
  let req := request types_StringNull types_StringUnknown types_StringNull [decoding_error] in
  let s' := run env_all req in
  (HasError (Diagnostics (Response (start env_all))) = true
   \/ HasError (Reported (Config req)) = true)
  /\ Diagnostics (Response s') = [decoding_error]
  /\ Trace s' = []
  /\ Clients s' = []
  /\ Environ s' = env_all
  /\ DataSourceData (Response s') = None
  /\ ResourceData (Response s') = None.
Proof.
  intros req s'.
  assert (HasError (Diagnostics (Response (start env_all))) = true
          \/ HasError (Reported (Config req)) = true) as H by (right; reflexivity).
  split; [exact H|].
  exact (earlier_error_stops_Configure Build_recording_Client dev context_Background
           req (start env_all) H).
Defined.

(** X7 at the token t0ken of the configuration, with LEASEWEB_TOKEN=abc123. *)
Lemma configured_token_wins_witness :
  let req := request types_StringNull (types_StringValue "t0ken") types_StringNull [] in
  let s' := run env_token_only req in
  HasError (decoded (Response (start env_token_only)) req) = false
  /\ Token (Values (Config req)) = types_StringValue "t0ken"
  /\ "t0ken" <> ""
  /\ getenv env_token_only "LEASEWEB_TOKEN" = "abc123"
  /\ exists optional,
       client_calls (Trace s') = [("t0ken", optional, "dev")]
       /\ Clients s' = [Build_recording_Client "t0ken" optional "dev"]
       /\ HasError (Diagnostics (Response s')) = false.
Proof.
  intros req s'.
  assert ("t0ken" <> "") as Hv by discriminate.
  split; [reflexivity|]. split; [reflexivity|]. split; [exact Hv|]. split; [reflexivity|].
  exact (configured_token_wins Build_recording_Client dev context_Background
           req (start env_token_only) "t0ken" eq_refl eq_refl Hv).
Defined.

(** X8 at a token set to the empty string, with LEASEWEB_TOKEN=abc123. *)
Lemma empty_configured_token_hides_environment_witness :
  let req := request types_StringNull (types_StringValue "") types_StringNull [] in
  let s' := run env_token_only req in
  HasError (decoded (Response (start env_token_only)) req) = false
  /\ Token (Values (Config req)) = types_StringValue ""
  /\ getenv env_token_only "LEASEWEB_TOKEN" = "abc123"
  /\ Diagnostics (Response s') = [token_error missing_token_summary missing_token_detail]
  /\ HasError (Diagnostics (Response s')) = true
  /\ client_calls (Trace s') = []
  /\ Clients s' = [].
Proof.
  intros req s'.
  split; [reflexivity|]. split; [reflexivity|]. split; [reflexivity|].
  exact (empty_configured_token_hides_environment Build_recording_Client dev
           context_Background req (start env_token_only) eq_refl eq_refl).
Defined.

(** X9 at two environments that differ in PATH only. *)
Lemma only_three_variables_matter_witness :
  let req := request types_StringNull types_StringNull types_StringNull [] in
  let r := (Configure Build_recording_Client dev context_Background req
              (with_environ (start ∅) env_token_only)).2 in
  let r' := (Configure Build_recording_Client dev context_Background req
               (with_environ (start ∅) env_with_path)).2 in
  getenv env_token_only "LEASEWEB_HOST" = getenv env_with_path "LEASEWEB_HOST"
  /\ getenv env_token_only "LEASEWEB_SCHEME" = getenv env_with_path "LEASEWEB_SCHEME"
  /\ getenv env_token_only "LEASEWEB_TOKEN" = getenv env_with_path "LEASEWEB_TOKEN"
  /\ env_token_only <> env_with_path
  /\ Trace r = Trace r' /\ Clients r = Clients r' /\ Response r = Response r'.
Proof.
  intros req r r'.
  split; [reflexivity|]. split; [reflexivity|]. split; [reflexivity|].
  split.
  - intros H. apply (f_equal (fun env => env !! "PATH")) in H. discriminate H.
  - exact (only_three_variables_matter Build_recording_Client dev context_Background
             req (start ∅) env_token_only env_with_path eq_refl eq_refl eq_refl).
Defined.

(** X11 from a fresh response, at a configuration that succeeds. *)
Lemma shared_clients_stay_equal_witness :
  let req := request types_StringNull types_StringNull types_StringNull [] in
  let s' := run env_token_only req in
  DataSourceData (Response (start env_token_only))
    = ResourceData (Response (start env_token_only))
  /\ DataSourceData (Response s') = Some 0
  /\ DataSourceData (Response s') = ResourceData (Response s').
Proof.
  intros req s'. split; [reflexivity|]. split; [reflexivity|].
  exact (shared_clients_stay_equal Build_recording_Client dev context_Background
           req (start env_token_only) eq_refl).
Defined.

(** X16 at a first call without a token, followed by a call with
    LEASEWEB_TOKEN=abc123. *)
Lemma failure_is_final_witness :
  let req := request types_StringNull types_StringNull types_StringNull [] in
  let s1 := run ∅ req in
  let s2 := (Configure Build_recording_Client dev context_Background req
               (with_environ s1 env_token_only)).2 in
  HasError (Diagnostics (Response s1)) = true
  /\ getenv (Environ (with_environ s1 env_token_only)) "LEASEWEB_TOKEN" = "abc123"
  /\ Trace s2 = Trace s1
  /\ Clients s2 = []
  /\ DataSourceData (Response s2) = None
  /\ ResourceData (Response s2) = None
  /\ HasError (Diagnostics (Response s2)) = true.
Proof.
  intros req s1 s2. split; [reflexivity|]. split; [reflexivity|].
  exact (failure_is_final Build_recording_Client dev context_Background req (start ∅)
           dev context_Background req env_token_only eq_refl).
Defined.

(** X17 at two calls with LEASEWEB_TOKEN=abc123 and an empty
    configuration. *)
Lemma second_Configure_builds_a_second_client_witness :
  let req := request types_StringNull types_StringNull types_StringNull [] in
  let s1 := run env_token_only req in
  let s2 := (Configure Build_recording_Client dev context_Background req s1).2 in
  HasError (Diagnostics (Response s1)) = false
  /\ exists c,
       Clients s1 = [c]
       /\ Clients s2 = [c; c]
       /\ DataSourceData (Response s1) = Some 0
       /\ DataSourceData (Response s2) = Some 1
       /\ ResourceData (Response s2) = Some 1
       /\ HasError (Diagnostics (Response s2)) = false.
Proof.
  intros req s1 s2. split; [reflexivity|].
  exact (second_Configure_builds_a_second_client Build_recording_Client dev
           context_Background context_Background req (start env_token_only) eq_refl).
Defined.

(** X18 at two requests without a token that differ in host and scheme. *)
Lemma host_and_scheme_never_fail_witness :
  let req := request types_StringUnknown types_StringNull (types_StringValue "") [] in
  let req' := request (types_StringValue "custom.example.com") types_StringNull
                types_StringUnknown [] in
  Token (Values (Config req)) = Token (Values (Config req'))
  /\ Reported (Config req) = Reported (Config req')
  /\ Diagnostics (Response (run env_all req)) = Diagnostics (Response (run env_all req'))
  /\ env_reads (Trace (run env_all req)) = env_reads (Trace (run env_all req'))
  /\ length (Clients (run env_all req)) = length (Clients (run env_all req')).
Proof.
  intros req req'. split; [reflexivity|]. split; [reflexivity|].
  exact (host_and_scheme_never_fail Build_recording_Client dev context_Background
           req req' (start env_all) eq_refl eq_refl).
Defined.
